(** * Energy Forecasting API: model resolution and the prediction pipeline

    A shallow embedding of [src/api/app.py]: the [ModelLoader] class with its
    three-tier fallback, and the request handlers ([/health], [/predict],
    [/info], [/metrics]).

    The program is effectful Python: it mutates the module-level
    [model_loader], draws from numpy's global random generator, calls MLflow
    and the loaded model, and uses [try]/[except] for control flow.  It is
    embedded in a state-and-exception monad over the process state; the
    collaborators the code only consumes (MLflow, the loaded model, numpy's
    generator, Flask's request parsing) are inputs of the embedding.  The
    [logger] calls decide nothing and are left out, except that the
    [len(predictions_list)] evaluated for a log line is kept, since it can
    raise. *)

From stdpp Require Import gmap strings list.
From Stdlib Require Import ZArith.

Local Open Scope string_scope.
Set Warnings "-register-all".

(** ** Python exceptions *)

(** An instance of a subclass of [Exception]: the name of its class, the
    names of that class's ancestors below [Exception], and [str(e)].
    Process-control signals deriving only from [BaseException]
    ([KeyboardInterrupt], [SystemExit]) are not values of this type. *)
Record exn := Exn {
  exn_class : string;
  exn_bases : list string;
  exn_str : string
}.

(** [isinstance(e, cls)] for a class named [cls]. *)
Definition isinstance (e : exn) (cls : string) : bool :=
  bool_decide (cls = "Exception")
  || bool_decide (cls = exn_class e)
  || bool_decide (cls ∈ exn_bases e).

Definition ValueError (msg : string) : exn := Exn "ValueError" [] msg.
Definition TypeError (msg : string) : exn := Exn "TypeError" [] msg.
Definition KeyError (msg : string) : exn := Exn "KeyError" ["LookupError"] msg.
Definition OverflowError (msg : string) : exn :=
  Exn "OverflowError" ["ArithmeticError"] msg.

(** The outcome of evaluating a Python expression. *)
Inductive result (A : Type) : Type :=
| Ok (a : A)
| Raise (e : exn).
Arguments Ok {A} a.
Arguments Raise {A} e.

Definition rbind {A B} (r : result A) (k : A -> result B) : result B :=
  match r with
  | Ok a => k a
  | Raise e => Raise e
  end.

Fixpoint rmapM {A B} (f : A -> result B) (l : list A) : result (list B) :=
  match l with
  | [] => Ok []
  | x :: xs =>
      rbind (f x) (fun y => rbind (rmapM f xs) (fun ys => Ok (y :: ys)))
  end.

(** ** Floating-point values

    The claims proved below are about shapes, statuses and labels, never
    about the numbers themselves, so binary64 ([float]) and binary32
    ([np.float32]) values and the conversions between them are an interface. *)
Class FloatModel := {
  f64 : Type;
  f32 : Type;
  (** truthiness of a Python float: [bool(x)] *)
  f64_truthy : f64 -> bool;
  (** [float(None)] as numpy stores it *)
  f32_nan : f32;
  f32_of_bool : bool -> f32;
  (** [None]: the integer is too large to convert to float *)
  f32_of_int : Z -> option f32;
  f32_of_f64 : f64 -> f32;
  (** [None]: the string does not spell a float *)
  f32_of_str : string -> option f32;
  (** widening done by [ndarray.tolist] *)
  f64_of_f32 : f32 -> f64
}.

(** A sample instance with integer-valued cells, for running the embedding
    on concrete inputs. *)
Definition int_floats : FloatModel := {|
  f64 := Z;
  f32 := Z;
  f64_truthy := fun x => negb (x =? 0)%Z;
  f32_nan := 0%Z;
  f32_of_bool := fun b => if b then 1%Z else 0%Z;
  f32_of_int := fun z => Some z;
  f32_of_f64 := fun x => x;
  f32_of_str := fun _ => None;
  f64_of_f32 := fun x => x
|}.

Section Values.
Context {FM : FloatModel}.

(** ** Python values as [json.loads] produces them *)
Inductive pyval : Type :=
| PyNone
| PyBool (b : bool)
| PyInt (z : Z)
| PyFloat (x : f64)
| PyStr (s : string)
| PyList (l : list pyval)
| PyDict (m : gmap string pyval).

(** [bool(v)], as evaluated by [if not data]. *)
Definition truthy (v : pyval) : bool :=
  match v with
  | PyNone => false
  | PyBool b => b
  | PyInt z => negb (z =? 0)%Z
  | PyFloat x => f64_truthy x
  | PyStr s => negb (bool_decide (s = ""))
  | PyList l => negb (bool_decide (l = []))
  | PyDict m => negb (bool_decide (m = ∅))
  end.

Definition is_str (k : string) (v : pyval) : bool :=
  match v with
  | PyStr s => bool_decide (s = k)
  | _ => false
  end.

(** [k in v] for a string [k]: key membership on a dict, element membership
    on a list, substring test on a string; other values are not iterable. *)
Definition py_contains (k : string) (v : pyval) : result bool :=
  match v with
  | PyDict m => Ok (bool_decide (is_Some (m !! k)))
  | PyList l => Ok (existsb (is_str k) l)
  | PyStr s => Ok (bool_decide (is_Some (String.index 0 k s)))
  | _ => Raise (TypeError "argument is not iterable")
  end.

(** [v[k]] for a string [k]. *)
Definition py_getitem (v : pyval) (k : string) : result pyval :=
  match v with
  | PyDict m =>
      match m !! k with
      | Some x => Ok x
      | None => Raise (KeyError k)
      end
  | PyList _ => Raise (TypeError "list indices must be integers or slices, not str")
  | PyStr _ => Raise (TypeError "string indices must be integers")
  | _ => Raise (TypeError "object is not subscriptable")
  end.

(** [len(v)]. *)
Definition py_len (v : pyval) : result nat :=
  match v with
  | PyList l => Ok (length l)
  | PyStr s => Ok (String.length s)
  | PyDict m => Ok (size m)
  | _ => Raise (TypeError "object has no len()")
  end.

(** ** numpy arrays *)

(** A float32 array: its shape and its cells in row-major order. *)
Record ndarray := NdArray {
  shape : list nat;
  cells : list f32
}.

Definition ndim (a : ndarray) : nat := length (shape a).

(** [len(a)]: the first dimension; a 0-d array is unsized. *)
Definition array_len (a : ndarray) : result nat :=
  match shape a with
  | n :: _ => Ok n
  | [] => Raise (TypeError "len() of unsized object")
  end.

(** [a.shape[0]]. *)
Definition shape0 (a : ndarray) : result nat :=
  match shape a with
  | n :: _ => Ok n
  | [] => Raise (Exn "IndexError" ["LookupError"] "tuple index out of range")
  end.

Definition NPY_MAXDIMS : nat := 32.

(** Shape discovery of [np.array] on nested lists: a list contributes its
    length as a dimension when all its items agree on the rest of the shape;
    anything that is not a list is a scalar.  [None] is numpy's
    "inhomogeneous shape". *)
Fixpoint discover (v : pyval) : option (list nat) :=
  match v with
  | PyList l =>
      match l with
      | [] => Some [0]
      | x :: xs =>
          match discover x with
          | Some s =>
              if forallb (fun y => bool_decide (discover y = Some s)) xs
              then Some (length l :: s)
              else None
          | None => None
          end
      end
  | _ => Some []
  end.

(** The scalars of a nested list, left to right. *)
Fixpoint leaves (v : pyval) : list pyval :=
  match v with
  | PyList l => flat_map leaves l
  | _ => [v]
  end.

(** Storing one scalar into a float32 cell ([float(x)] narrowed). *)
Definition setitem (v : pyval) : result f32 :=
  match v with
  | PyNone => Ok f32_nan
  | PyBool b => Ok (f32_of_bool b)
  | PyInt z =>
      match f32_of_int z with
      | Some x => Ok x
      | None => Raise (OverflowError "int too large to convert to float")
      end
  | PyFloat x => Ok (f32_of_f64 x)
  | PyStr s =>
      match f32_of_str s with
      | Some x => Ok x
      | None => Raise (ValueError "could not convert string to float")
      end
  | PyList _ => Raise (ValueError "setting an array element with a sequence.")
  | PyDict _ =>
      Raise (TypeError "float() argument must be a string or a real number, not 'dict'")
  end.

(** [np.array(v, dtype=np.float32)]: the shape is fixed first, and a ragged
    or too deeply nested value is refused before any cell is converted. *)
Definition np_array (v : pyval) : result ndarray :=
  match discover v with
  | None =>
      Raise (ValueError "setting an array element with a sequence. The requested array has an inhomogeneous shape")
  | Some s =>
      if bool_decide (length s <= NPY_MAXDIMS)
      then rbind (rmapM setitem (leaves v)) (fun cs => Ok (NdArray s cs))
      else Raise (ValueError "setting an array element with a sequence. The requested array would exceed the maximum number of dimension")
  end.

(** [n] consecutive chunks of [k] cells. *)
Fixpoint chunks {A} (n k : nat) (l : list A) : list (list A) :=
  match n with
  | O => []
  | S n' => take k l :: chunks n' k (drop k l)
  end.

Definition size_of (s : list nat) : nat := foldr Nat.mul 1 s.

(** [a.tolist()] for cells of shape [s]: nested lists of Python floats, a
    bare float for a 0-d array. *)
Fixpoint tolist_shape (s : list nat) (cs : list f64) : pyval :=
  match s with
  | [] =>
      match cs with
      | c :: _ => PyFloat c
      | [] => PyNone
      end
  | n :: s' => PyList (map (tolist_shape s') (chunks n (size_of s') cs))
  end.

Definition tolist (a : ndarray) : pyval :=
  tolist_shape (shape a) (map f64_of_f32 (cells a)).

End Values.

Arguments pyval : clear implicits.
Arguments ndarray : clear implicits.

Section Serving.
Context {FM : FloatModel}.

(** ** Collaborators *)

(** What a loaded model may hand back from [predict]: a numpy array, a plain
    Python value, or some other object (no [tolist], not JSON serialisable;
    [obj_size] is its [len], if it has one). *)
Inductive pyobj : Type :=
| ObjArray (a : ndarray FM)
| ObjPlain (v : pyval FM)
| ObjOther (obj_class : string) (obj_size : option nat).

(** A loaded [mlflow.pyfunc.PyFuncModel], seen through its [predict]. *)
Definition handle : Type := ndarray FM -> result pyobj.

(** A run returned by [MlflowClient.search_runs]: [run.info.run_id]. *)
Record Run := { run_id : string }.

(** Everything outside the process: [mlflow.pyfunc.load_model] by URI, the
    query [search_runs(experiment_ids=["1"], order_by=["start_time DESC"],
    max_results=1)], and the draws of numpy's global generator. *)
Record World := {
  mlflow_load_model : string -> result handle;
  search_runs : result (list Run);
  noise : nat -> f64
}.

(** Calls made to collaborators, oldest first. *)
Inductive call : Type :=
| CallLoadModel (uri : string)
| CallSearchRuns
| CallPredict (a : ndarray FM)
| CallRandn (rows cols : nat).

(** ** Process state *)

(** The attributes of a [ModelLoader] instance. *)
Record ModelLoader := {
  model : option handle;
  model_version : string;
  mlflow_tracking_uri : string
}.

(** The module-level [model_loader], the position of numpy's generator in
    [noise], and the collaborator calls made so far. *)
Record process := {
  model_loader : ModelLoader;
  rng : nat;
  calls : list call
}.

(** ** The state-and-exception monad *)

Definition M (A : Type) : Type := process -> result A * process.

Definition ret {A} (a : A) : M A := fun p => (Ok a, p).

Definition bind {A B} (m : M A) (k : A -> M B) : M B :=
  fun p =>
    match m p with
    | (Ok a, p') => k a p'
    | (Raise e, p') => (Raise e, p')
    end.

Definition lift {A} (r : result A) : M A := fun p => (r, p).

(** [try: body  except Exception as e: handler e]; what [body] changed
    before raising stays changed. *)
Definition try_except {A} (body : M A) (handler : exn -> M A) : M A :=
  fun p =>
    match body p with
    | (Ok a, p') => (Ok a, p')
    | (Raise e, p') => handler e p'
    end.

Definition get_loader : M ModelLoader := fun p => (Ok (model_loader p), p).

Definition set_model (h : handle) : M unit :=
  fun p =>
    (Ok tt,
     {| model_loader :=
          {| model := Some h;
             model_version := model_version (model_loader p);
             mlflow_tracking_uri := mlflow_tracking_uri (model_loader p) |};
        rng := rng p; calls := calls p |}).

Definition set_model_version (v : string) : M unit :=
  fun p =>
    (Ok tt,
     {| model_loader :=
          {| model := model (model_loader p);
             model_version := v;
             mlflow_tracking_uri := mlflow_tracking_uri (model_loader p) |};
        rng := rng p; calls := calls p |}).

Definition record (c : call) : M unit :=
  fun p =>
    (Ok tt,
     {| model_loader := model_loader p; rng := rng p;
        calls := calls p ++ [c] |}).

End Serving.

Declare Scope py_scope.
Delimit Scope py_scope with py.
Notation "x <- m ;; k" := (bind m (fun x => k))
  (at level 100, m at next level, right associativity) : py_scope.

Local Open Scope py_scope.

Section Application.
Context {FM : FloatModel}.
Variable W : World.

(** ** Collaborator calls *)

(** [mlflow.pyfunc.load_model(uri)]. *)
Definition load_model_uri (uri : string) : M handle :=
  _ <- record (CallLoadModel uri) ;; lift (mlflow_load_model W uri).

(** [self.client.search_runs(...)]. *)
Definition client_search_runs : M (list Run) :=
  _ <- record CallSearchRuns ;; lift (search_runs W).

(** [model.predict(sequences)]. *)
Definition model_predict (h : handle) (a : ndarray FM) : M pyobj :=
  _ <- record (CallPredict a) ;; lift (h a).

(** [n] rows of [m] draws, taken from [noise] at position [start] on. *)
Definition noise_rows (start n m : nat) : list (list f64) :=
  map (fun i => map (fun j => noise W (start + i * m + j)) (seq 0 m))
      (seq 0 n).

(** [np.random.randn(n, m).tolist()]: [n] rows of [m] fresh draws. *)
Definition randn_tolist (n m : nat) : M (pyval FM) :=
  fun p =>
    (Ok (PyList (map (fun row => PyList (map PyFloat row))
                     (noise_rows (rng p) n m))),
     {| model_loader := model_loader p;
        rng := rng p + n * m;
        calls := calls p ++ [CallRandn n m] |}).

(** ** class ModelLoader *)

(** [ModelLoader.__init__], with the default tracking URI. *)
Definition ModelLoader_init : ModelLoader :=
  {| model := None;
     model_version := "none";
     mlflow_tracking_uri := "http://mlflow:5000" |}.

Definition production_uri : string :=
  "models:/energy_forecasting_model/Production".

Definition run_uri (rid : string) : string := "runs:/" ++ rid ++ "/model".

Definition load_production_model : M bool :=
  try_except
    (h <- load_model_uri production_uri ;;
     _ <- set_model h ;;
     _ <- set_model_version "production" ;;
     ret true)
    (fun _ => ret false).

Definition load_latest_model : M bool :=
  try_except
    (runs <- client_search_runs ;;
     match runs with
     | r :: _ =>
         h <- load_model_uri (run_uri (run_id r)) ;;
         _ <- set_model h ;;
         _ <- set_model_version (String.substring 0 8 (run_id r)) ;;
         ret true
     | [] => ret false
     end)
    (fun _ => ret false).

Definition load_model : M unit :=
  ok <- load_production_model ;;
  if ok then ret tt
  else
    ok <- load_latest_model ;;
    if ok then ret tt
    else set_model_version "dummy".

(** The module body: [model_loader = ModelLoader()] followed by
    [model_loader.load_model()]. *)
Definition initial_process : process :=
  {| model_loader := ModelLoader_init; rng := 0; calls := [] |}.

Definition startup : result unit * process := load_model initial_process.

(** ** Responses *)

(** A view's return value [(body, status)]. *)
Record response := {
  body : pyval FM;
  status : nat
}.

(** [jsonify(d)] for a dict literal [d]: every value must be serialisable. *)
Definition jsonify (d : list (string * pyobj)) : result (pyval FM) :=
  rbind
    (rmapM (fun kv =>
              match snd kv with
              | ObjPlain v => Ok (fst kv, v)
              | _ => Raise (TypeError "Object is not JSON serializable")
              end) d)
    (fun kvs => Ok (PyDict (list_to_map kvs))).

Definition respond (d : list (string * pyobj)) (code : nat) : M response :=
  b <- lift (jsonify d) ;; ret {| body := b; status := code |}.

Definition error_response (msg type : string) (code : nat) : M response :=
  respond [("error", ObjPlain (PyStr msg));
           ("error_type", ObjPlain (PyStr type))] code.

(** ** The views *)

(** Truthiness of [model_loader.model]: a loaded model is truthy, [None]
    is not. *)
Definition model_truthy (m : option handle) : bool :=
  match m with
  | Some _ => true
  | None => false
  end.

(** [GET /health]; [now] is [datetime.utcnow().isoformat()]. *)
Definition health_check (now : string) : M response :=
  ldr <- get_loader ;;
  respond [("status", ObjPlain (PyStr "healthy"));
           ("model", ObjPlain (PyStr (if model_truthy (model ldr) then "loaded" else "dummy")));
           ("model_version", ObjPlain (PyStr (model_version ldr)));
           ("timestamp", ObjPlain (PyStr (now ++ "Z")))] 200.

(** [len(predictions_list)], evaluated for the log line before the
    response is built. *)
Definition obj_len (o : pyobj) : result nat :=
  match o with
  | ObjArray a => array_len a
  | ObjPlain v => py_len v
  | ObjOther _ (Some n) => Ok n
  | ObjOther _ None => Raise (TypeError "object has no len()")
  end.

(** [predictions.tolist() if hasattr(predictions, 'tolist') else predictions]. *)
Definition to_list_if_array (o : pyobj) : pyobj :=
  match o with
  | ObjArray a => ObjPlain (tolist a)
  | _ => o
  end.

(** The PREDICTION and RESPONSE parts of [predict], entered with the
    validated [sequences]. *)
Definition predict_sequences (sequences : ndarray FM) : M response :=
  ldr <- get_loader ;;
  predictions_list <-
    (let dummy :=
       n <- lift (shape0 sequences) ;;
       rows <- randn_tolist n 24 ;;
       ret (ObjPlain rows) in
     match model ldr with
     | Some h =>
         n <- lift (array_len sequences) ;;
         if (0 <? n)%nat
         then predictions <- model_predict h sequences ;;
              ret (to_list_if_array predictions)
         else dummy
     | None => dummy
     end) ;;
  ldr' <- get_loader ;;
  _ <- lift (obj_len predictions_list) ;;
  respond [("predictions", predictions_list);
           ("model_version", ObjPlain (PyStr (model_version ldr')))] 200.

(** The body of the [try] in [predict]; [json] is what
    [request.get_json()] evaluates to: the decoded body, or the exception
    Flask raises (see [get_json] below). *)
Definition predict_try (json : result (pyval FM)) : M response :=
  data <- lift json ;;
  if negb (truthy data)
  then error_response "No JSON data provided" "MissingData" 400
  else
    present <- lift (py_contains "sequences" data) ;;
    if negb present
    then error_response "Missing 'sequences' field in request" "MissingField" 400
    else
      raw <- lift (py_getitem data "sequences") ;;
      sequences <- lift (np_array raw) ;;
      if negb (ndim sequences =? 2)%nat
      then error_response "Sequences must be a 2D array" "InvalidDimension" 400
      else predict_sequences sequences.

(** The three [except] clauses of [predict], tried in order. *)
Definition predict_except (e : exn) : M response :=
  if isinstance e "ValueError"
  then error_response ("Invalid data format: " ++ exn_str e) "ValueError" 400
  else if isinstance e "KeyError"
  then error_response ("Missing key in request: " ++ exn_str e) "KeyError" 400
  else error_response ("Internal server error: " ++ exn_str e) (exn_class e) 500.

(** [POST /predict]. *)
Definition predict (json : result (pyval FM)) : M response :=
  try_except (predict_try json) predict_except.

(** The view [get_metrics], routed at [/metrics] on line 392.  The same
    path was given to the exporter's own view when [PrometheusMetrics(app)]
    ran on line 81, and the rule registered first is the one that matches,
    so no request is dispatched to this view. *)
Definition get_metrics : M response :=
  ret {| body := PyStr ""; status := 204 |}.

(** The exporter's view at [/metrics]: 200 with the text exposition of the
    collected metrics, which is an input here. *)
Definition exporter_metrics (exposition : string) : M response :=
  ret {| body := PyStr exposition; status := 200 |}.

Definition endpoints : pyval FM :=
  PyList [PyStr "/health"; PyStr "/predict"; PyStr "/metrics"; PyStr "/info"].

(** [GET /info]. *)
Definition model_info : M response :=
  ldr <- get_loader ;;
  respond [("model_version", ObjPlain (PyStr (model_version ldr)));
           ("model_loaded", ObjPlain (PyBool (model_truthy (model ldr))));
           ("mlflow_tracking_uri", ObjPlain (PyStr (mlflow_tracking_uri ldr)));
           ("endpoints", ObjPlain endpoints)] 200.

(** ** Serving requests *)

Inductive request : Type :=
| GetHealth (now : string)
| PostPredict (json : result (pyval FM))
| GetInfo
| GetMetrics (exposition : string).

Definition dispatch (r : request) : M response :=
  match r with
  | GetHealth now => health_check now
  | PostPredict json => predict json
  | GetInfo => model_info
  | GetMetrics exposition => exporter_metrics exposition
  end.

(** The requests of a process lifetime, handled one after the other. *)
Fixpoint serve (rs : list request) : M (list response) :=
  match rs with
  | [] => ret []
  | r :: rs' =>
      x <- dispatch r ;;
      xs <- serve rs' ;;
      ret (x :: xs)
  end.

(** ** Reading a response *)

Definition field (k : string) (r : response) : option (pyval FM) :=
  match body r with
  | PyDict m => m !! k
  | _ => None
  end.

Definition error_type (r : response) : option (pyval FM) := field "error_type" r.

End Application.

(** ** The resolution outcome of the specification *)

Section Resolution.
Context {FM : FloatModel}.

(** The tagged outcome of the specification's [resolve()]; the code keeps
    only the pair [(model, model_version)]. *)
Inductive ResolutionOutcome : Type :=
| Production (h : handle)
| LatestRun (h : handle) (rid : string)
| Unavailable.

(** The fallback chain in the specification's words: Tier 1 loads the
    Production model; on a miss Tier 2 loads the model of the latest run, if
    there is one; otherwise the model is unavailable. *)
Definition resolve_spec (W : World) : ResolutionOutcome :=
  match mlflow_load_model W production_uri with
  | Ok h => Production h
  | Raise _ =>
      match search_runs W with
      | Ok (r :: _) =>
          match mlflow_load_model W (run_uri (run_id r)) with
          | Ok h => LatestRun h (run_id r)
          | Raise _ => Unavailable
          end
      | Ok [] => Unavailable
      | Raise _ => Unavailable
      end
  end.

(** The loader attributes that stand for an outcome. *)
Definition loader_of (o : ResolutionOutcome) : ModelLoader :=
  match o with
  | Production h =>
      {| model := Some h; model_version := "production";
         mlflow_tracking_uri := "http://mlflow:5000" |}
  | LatestRun h rid =>
      {| model := Some h; model_version := String.substring 0 8 rid;
         mlflow_tracking_uri := "http://mlflow:5000" |}
  | Unavailable =>
      {| model := None; model_version := "dummy";
         mlflow_tracking_uri := "http://mlflow:5000" |}
  end.

(** The registry calls an outcome accounts for: Tier 2 is called only
    after a Tier-1 miss. *)
Definition tier_calls (o : ResolutionOutcome) (cs : list call) : Prop :=
  match o with
  | Production _ => cs = [CallLoadModel production_uri]
  | LatestRun _ rid =>
      cs = [CallLoadModel production_uri; CallSearchRuns;
            CallLoadModel (run_uri rid)]
  | Unavailable =>
      take 2 cs = [CallLoadModel production_uri; CallSearchRuns]
  end.

(** A label the resolution may leave in [model_version]. *)
Definition resolved_label (W : World) (v : string) : Prop :=
  v = "production"
  \/ (exists r rs, search_runs W = Ok (r :: rs)
                   /\ v = String.substring 0 8 (run_id r))
  \/ v = "dummy".

(** An operation that leaves the module-level [model_loader] as it was. *)
Definition reads_loader {A} (m : M A) : Prop :=
  forall p, model_loader (snd (m p)) = model_loader p.

(** A handle whose output has as many rows as its input. *)
Definition preserves_rows (h : handle) : Prop :=
  forall a o, h a = Ok o -> obj_len o = array_len a.

(** The response [({"error": msg, "error_type": type}, code)]: a body of
    these two fields and nothing else. *)
Definition error_reply (msg type : string) (code : nat) : response :=
  {| body := PyDict (list_to_map [("error", PyStr msg);
                                  ("error_type", PyStr type)]);
     status := code |}.

(** The response [({"predictions": preds, "model_version": v}, 200)]. *)
Definition prediction_reply (preds : pyval FM) (v : string) : response :=
  {| body := PyDict (list_to_map [("predictions", preds);
                                  ("model_version", PyStr v)]);
     status := 200 |}.

(** What a view answered: its status and error_type, when it returned. *)
Definition answer (out : result response * process)
  : option (nat * option (pyval FM)) :=
  match fst out with
  | Ok r => Some (status r, error_type r)
  | Raise _ => None
  end.

(** A value that is a matrix of [n] rows of [m] floats each, in the nested
    list form of a response. *)
Definition is_matrix (v : pyval FM) (n m : nat) : Prop :=
  exists rows,
    v = PyList rows
    /\ length rows = n
    /\ Forall (fun row => exists xs,
                 row = PyList (map PyFloat xs) /\ length xs = m) rows.

End Resolution.

(** ** Sample collaborators, for concrete runs *)

Section Samples.
#[local] Existing Instance int_floats.

Definition sample_noise (i : nat) : @f64 int_floats := Z.of_nat i.

(** A registry that has no model at all. *)
Definition empty_registry : World :=
  {| mlflow_load_model := fun _ => Raise (Exn "MlflowException" [] "not found");
     search_runs := Ok [];
     noise := sample_noise |}.

(** A model answering every 2-D input of [n] rows with [n] rows of 24 zeros. *)
Definition zeros_model : handle :=
  fun a =>
    match shape a with
    | n :: _ => Ok (ObjArray (@NdArray int_floats [n; 24] (repeat 0%Z (n * 24))))
    | [] => Raise (ValueError "expected a batch")
    end.

(** A model that rejects its input with a [ValueError]. *)
Definition rejecting_model : handle :=
  fun _ => Raise (ValueError "Input 0 of layer is incompatible with the layer").

(** A model that breaks with a [RuntimeError]. *)
Definition broken_model : handle :=
  fun _ => Raise (Exn "RuntimeError" [] "session closed").

Definition registry_with (h : handle) : World :=
  {| mlflow_load_model := fun uri =>
       if bool_decide (uri = production_uri) then Ok h
       else Raise (Exn "MlflowException" [] "not found");
     search_runs := Ok [];
     noise := sample_noise |}.

(** The process after start-up against a registry. *)
Definition started (W : World) : process := snd (startup W).

(** The body [{"sequences": v}]. *)
Definition sequences_body (v : pyval int_floats) : result (pyval int_floats) :=
  Ok (PyDict {["sequences" := v]}).

Definition ragged_rows : pyval int_floats :=
  PyList [PyList [PyInt 1; PyInt 2]; PyList [PyInt 3; PyInt 4; PyInt 5]].

Definition one_row : pyval int_floats :=
  PyList [PyList [PyInt 1; PyInt 2; PyInt 3; PyInt 4]].

Definition flat_list : pyval int_floats := PyList [PyInt 1; PyInt 2; PyInt 3].

(** A 2-D array with no rows: shape [(0, 4)]. *)
Definition no_rows : ndarray int_floats := NdArray [0; 4] [].

(** [np.array] of [one_row] and of [flat_list]. *)
Definition one_row_array : ndarray int_floats :=
  @NdArray int_floats [1; 4] [1; 2; 3; 4]%Z.

Definition flat_array : ndarray int_floats :=
  @NdArray int_floats [3] [1; 2; 3]%Z.

(** One row of 24 zeros, as [zeros_model] answers [one_row_array]. *)
Definition zero_row : pyval int_floats :=
  PyList [PyList (map (@PyFloat int_floats) (repeat 0%Z 24))].

End Samples.

(** ** Flask: what [request.get_json()] evaluates to *)

Section Flask.
Context {FM : FloatModel}.

(** The two things [get_json] looks at: whether the Content-Type of the
    request is [application/json], and what the body decodes to ([None] for
    an absent, empty or otherwise undecodable body). *)
Record flask_request := {
  is_json : bool;
  decoded : option (pyval FM)
}.

Definition UnsupportedMediaType : exn :=
  Exn "UnsupportedMediaType" ["HTTPException"]
      "415 Unsupported Media Type: Did not attempt to load JSON data because the request Content-Type was not 'application/json'.".

Definition BadRequest : exn :=
  Exn "BadRequest" ["HTTPException"]
      "400 Bad Request: The browser (or proxy) sent a request that this server could not understand.".

(** [request.get_json()] with its default arguments, in Flask 2.3.3, the
    version the module's docstring pins: without the JSON Content-Type it
    raises [UnsupportedMediaType], on a body that does not decode it raises
    [BadRequest]; it returns [None] only for the body [null]. *)
Definition get_json (req : flask_request) : result (pyval FM) :=
  if is_json req
  then match decoded req with
       | Some v => Ok v
       | None => Raise BadRequest
       end
  else Raise UnsupportedMediaType.

(** A request carrying [v] as JSON. *)
Definition json_request (v : pyval FM) : flask_request :=
  {| is_json := true; decoded := Some v |}.

(** A request with no body and no Content-Type, and one that announces
    JSON but has an empty body. *)
Definition absent_request : flask_request :=
  {| is_json := false; decoded := None |}.

Definition empty_json_request : flask_request :=
  {| is_json := true; decoded := None |}.

End Flask.

(** ** Vocabulary for the remaining paths of the views *)

Section Vocabulary.
Context {FM : FloatModel}.

(** A prediction the RESPONSE part cannot answer with: it has no [len]
    (a 0-d array, whose [tolist] is a bare number; a plain unsized value) or
    it is not JSON serialisable. *)
Definition unanswerable (o : pyobj) : bool :=
  match o with
  | ObjArray a => bool_decide (shape a = [])
  | ObjPlain v =>
      match py_len v with
      | Ok _ => false
      | Raise _ => true
      end
  | ObjOther _ _ => true
  end.

(** The value a prediction is sent as. *)
Definition predictions_of (o : pyobj) : option (pyval FM) :=
  match o with
  | ObjArray a => Some (tolist a)
  | ObjPlain v => Some v
  | ObjOther _ _ => None
  end.

(** Bodies that are neither containers nor strings: [in] raises on them. *)
Definition not_iterable (v : pyval FM) : bool :=
  match v with
  | PyNone | PyBool _ | PyInt _ | PyFloat _ => true
  | PyStr _ | PyList _ | PyDict _ => false
  end.

(** The class of the exception [setitem] raises on a scalar it cannot
    store, and the status [predict] answers it with. *)
Definition bad_leaf_class (v : pyval FM) : string :=
  match v with
  | PyStr _ | PyList _ => "ValueError"
  | PyDict _ => "TypeError"
  | _ => "OverflowError"
  end.

Definition bad_leaf_status (v : pyval FM) : nat :=
  match v with
  | PyStr _ | PyList _ => 400
  | _ => 500
  end.

(** What each route answers with, as far as the label goes: the three
    views of the application answer with the loader's model_version whenever
    they answer 200, the exporter answers 200 with its text. *)
Definition answered_under (v : string) (r : request) (x : response) : Prop :=
  match r with
  | GetMetrics exposition => x = {| body := PyStr exposition; status := 200 |}
  | _ => status x = 200 -> field "model_version" x = Some (PyStr v)
  end.

End Vocabulary.

Section MoreSamples.
#[local] Existing Instance int_floats.

(** A model that answers with a 0-d array. *)
Definition scalar_model : handle :=
  fun _ => Ok (ObjArray (@NdArray int_floats [] [0%Z])).

(** A registry with no Production model and one run whose model loads. *)
Definition registry_with_run (rid : string) (h : handle) : World :=
  {| mlflow_load_model := fun uri =>
       if bool_decide (uri = run_uri rid) then Ok h
       else Raise (Exn "MlflowException" [] "not found");
     search_runs := Ok [{| run_id := rid |}];
     noise := sample_noise |}.

Definition sample_run_id : string := "3f2a9c1e77b04d5a8e6f0a1b2c3d4e5f".

(** [[1, "abc"]] nested once: rectangular, with a string that spells no
    float. *)
Definition text_cell_rows : pyval int_floats :=
  PyList [PyList [PyInt 1; PyStr "abc"]].

End MoreSamples.

(** * Properties *)

(** Unfolds the monad so that a computation runs as far as the collaborators'
    answers are known. *)
Ltac run :=
  unfold try_except, bind, ret, lift, record, get_loader, set_model,
    set_model_version; simpl.

Section ResolutionProperties.
Context {FM : FloatModel}.
Variable W : World.

Lemma load_production_model_hit h p :
  mlflow_load_model W production_uri = Ok h ->
  load_production_model W p =
    (Ok true,
     {| model_loader :=
          {| model := Some h; model_version := "production";
             mlflow_tracking_uri := mlflow_tracking_uri (model_loader p) |};
        rng := rng p;
        calls := calls p ++ [CallLoadModel production_uri] |}).
Proof.
  intros E. unfold load_production_model, load_model_uri. run.
  rewrite E. reflexivity.
Qed.

Lemma load_production_model_miss e p :
  mlflow_load_model W production_uri = Raise e ->
  load_production_model W p =
    (Ok false,
     {| model_loader := model_loader p; rng := rng p;
        calls := calls p ++ [CallLoadModel production_uri] |}).
Proof.
  intros E. unfold load_production_model, load_model_uri. run.
  rewrite E. reflexivity.
Qed.

(** [load_latest_model] never raises, whatever the registry answers. *)
Lemma load_latest_model_total p :
  exists b p', load_latest_model W p = (Ok b, p').
Proof.
  unfold load_latest_model, client_search_runs, load_model_uri. run.
  destruct (search_runs W) as [[|r rs]|e]; simpl; eauto.
  destruct (mlflow_load_model W (run_uri (run_id r))); simpl; eauto.
Qed.

(** Runs [load_model] by cases on what the registry answers. *)
Ltac run_tiers W :=
  unfold startup, load_model, resolve_spec, bind;
  let h := fresh "h" in
  let e := fresh "e" in
  let E1 := fresh "E" in
  destruct (mlflow_load_model W production_uri) as [h|e] eqn:E1;
  [ rewrite (load_production_model_hit h _ E1); simpl
  | rewrite (load_production_model_miss e _ E1);
    unfold load_latest_model, client_search_runs, load_model_uri; run;
    let r := fresh "r" in
    destruct (search_runs W) as [[|r ?]|?]; simpl;
    [ | destruct (mlflow_load_model W (run_uri (run_id r))); simpl | ] ].

(** The loader start-up leaves behind. *)
Lemma startup_loader :
  model_loader (snd (startup W)) = loader_of (resolve_spec W).
Proof. run_tiers W; reflexivity. Qed.

(** C1. Model resolution at start-up always completes without raising, and
    leaves exactly the loader of the outcome the fallback chain prescribes:
    Production when the Tier-1 load succeeds (and then the registry saw that
    one call only, Tier 2 was not attempted), else LatestRun when a latest
    run exists and its artifact loads, else Unavailable. *)
Theorem load_model_resolves :
  fst (startup W) = Ok tt
  /\ model_loader (snd (startup W)) = loader_of (resolve_spec W)
  /\ tier_calls (resolve_spec W) (calls (snd (startup W))).
Proof.
  split; [|split].
  - run_tiers W; reflexivity.
  - apply startup_loader.
  - run_tiers W; reflexivity.
Qed.

End ResolutionProperties.

(** ** The views only read the loader *)

Section ReadOnly.
Context {FM : FloatModel}.
Variable W : World.

Lemma reads_ret {A} (a : A) : reads_loader (ret a).
Proof. intros p. reflexivity. Qed.

Lemma reads_lift {A} (r : result A) : reads_loader (lift r).
Proof. intros p. reflexivity. Qed.

Lemma reads_get_loader : reads_loader get_loader.
Proof. intros p. reflexivity. Qed.

Lemma reads_record c : reads_loader (record c).
Proof. intros p. reflexivity. Qed.

Lemma reads_randn_tolist n m : reads_loader (randn_tolist W n m).
Proof. intros p. reflexivity. Qed.

Lemma reads_bind {A B} (m : M A) (k : A -> M B) :
  reads_loader m -> (forall a, reads_loader (k a)) -> reads_loader (bind m k).
Proof.
  intros Hm Hk p. unfold bind. specialize (Hm p).
  destruct (m p) as [[a|e] p']; simpl in *.
  - rewrite Hk. exact Hm.
  - exact Hm.
Qed.

Lemma reads_try_except {A} (body : M A) (handler : exn -> M A) :
  reads_loader body -> (forall e, reads_loader (handler e)) ->
  reads_loader (try_except body handler).
Proof.
  intros Hb Hh p. unfold try_except. specialize (Hb p).
  destruct (body p) as [[a|e] p']; simpl in *.
  - exact Hb.
  - rewrite Hh. exact Hb.
Qed.

Create HintDb reads discriminated.
#[local] Hint Resolve reads_ret reads_lift reads_get_loader reads_record
  reads_randn_tolist : reads.

(** Splits a computation along its binds and branches; every primitive left
    is one that only reads. *)
Ltac reads_only :=
  repeat first
    [ solve [auto with reads]
    | progress cbv zeta
    | apply reads_bind; [| intros ?]
    | apply reads_try_except; [| intros ?]
    | match goal with
      | |- reads_loader (if ?b then _ else _) => destruct b
      | |- reads_loader (match ?x with _ => _ end) => destruct x
      end ].

Lemma reads_respond d code : reads_loader (respond d code).
Proof. unfold respond. reads_only. Qed.

Lemma reads_error_response msg type code :
  reads_loader (error_response msg type code).
Proof. apply reads_respond. Qed.

#[local] Hint Resolve reads_respond reads_error_response : reads.

Lemma reads_predict_sequences a : reads_loader (predict_sequences W a).
Proof. unfold predict_sequences, model_predict. reads_only. Qed.

#[local] Hint Resolve reads_predict_sequences : reads.

Lemma reads_predict json : reads_loader (predict W json).
Proof. unfold predict, predict_try, predict_except. reads_only. Qed.

Lemma reads_health_check now : reads_loader (health_check now).
Proof. unfold health_check. reads_only. Qed.

Lemma reads_model_info : reads_loader model_info.
Proof. unfold model_info. reads_only. Qed.

Lemma reads_get_metrics : reads_loader get_metrics.
Proof. unfold get_metrics. reads_only. Qed.

Lemma reads_dispatch r : reads_loader (dispatch W r).
Proof.
  destruct r; simpl;
    auto using reads_health_check, reads_predict, reads_model_info,
               reads_get_metrics.
Qed.

Lemma reads_serve rs : reads_loader (serve W rs).
Proof.
  induction rs as [|r rs IH]; simpl.
  - apply reads_ret.
  - apply reads_bind; [apply reads_dispatch | intros x].
    apply reads_bind; [exact IH | intros xs; apply reads_ret].
Qed.

Lemma startup_label : resolved_label W (model_version (model_loader (snd (startup W)))).
Proof.
  rewrite (startup_loader W).
  unfold resolved_label, resolve_spec.
  destruct (mlflow_load_model W production_uri); simpl; auto.
  destruct (search_runs W) as [[|r rs]|e2]; simpl; auto.
  destruct (mlflow_load_model W (run_uri (run_id r))); simpl; eauto 6.
Qed.

(** C5. Once resolution has completed, [model_version] is "production", the
    first 8 characters of the identifier of the run the registry returned,
    or "dummy"; and whatever requests the process then handles, the label
    (with the rest of the loader) stays what resolution left. *)
Theorem model_version_fixed (rs : list request) :
  resolved_label W (model_version (model_loader (snd (startup W))))
  /\ model_loader (snd (serve W rs (snd (startup W))))
     = model_loader (snd (startup W)).
Proof.
  split.
  - apply startup_label.
  - apply reads_serve.
Qed.

End ReadOnly.

(** ** numpy: what [np.array] makes of a parsed value *)

Section ArrayProperties.
Context {FM : FloatModel}.

Lemma np_array_shape (raw : pyval FM) a :
  np_array raw = Ok a -> discover raw = Some (shape a).
Proof.
  unfold np_array. destruct (discover raw) as [s|]; [|discriminate].
  destruct (bool_decide (length s <= NPY_MAXDIMS)); [|discriminate].
  destruct (rmapM setitem (leaves raw)); simpl; [|discriminate].
  intros [= <-]. reflexivity.
Qed.

Lemma np_array_ragged (raw : pyval FM) :
  discover raw = None ->
  exists msg, np_array raw = Raise (ValueError msg).
Proof. unfold np_array. intros ->. eauto. Qed.

(** A list's first dimension is its length, so an array built from a parsed
    value and having two dimensions has at least one row: the empty list is
    one-dimensional. *)
Lemma discover_rows_positive (raw : pyval FM) n s :
  discover raw = Some (n :: s) -> s <> [] -> 0 < n.
Proof.
  destruct raw as [| | | | |l|]; simpl; try discriminate.
  destruct l as [|x xs]; [intros [= <- <-]; congruence|].
  destruct (discover x); [|discriminate].
  destruct (forallb _ xs); [|discriminate].
  intros [= <- <-] _. simpl. lia.
Qed.

Lemma np_array_rows_positive (raw : pyval FM) a :
  np_array raw = Ok a -> ndim a = 2 ->
  exists n L, shape a = [S n; L].
Proof.
  intros Ha Hd. apply np_array_shape in Ha. unfold ndim in Hd.
  destruct (shape a) as [|n [|L [|]]] eqn:Es; try discriminate.
  apply discover_rows_positive in Ha; [|discriminate].
  destruct n; [lia|]. eauto.
Qed.

Lemma length_chunks {A} n k (l : list A) : length (chunks n k l) = n.
Proof.
  revert l. induction n as [|n IH]; intros l; simpl; [reflexivity|].
  now rewrite IH.
Qed.

(** [len(a.tolist())] is [len(a)] for an array with at least one dimension. *)
Lemma py_len_tolist (a : ndarray FM) n :
  array_len a = Ok n -> py_len (tolist a) = Ok n.
Proof.
  unfold array_len, tolist. destruct (shape a) as [|m s]; [discriminate|].
  intros [= ->]. simpl. now rewrite length_map, length_chunks.
Qed.

End ArrayProperties.

(** ** The prediction pipeline *)

Section PredictProperties.
Context {FM : FloatModel}.
Variable W : World.

Lemma error_response_run msg type code p :
  error_response msg type code p = (Ok (error_reply msg type code), p).
Proof. reflexivity. Qed.

Lemma error_type_error_reply msg type code :
  error_type (error_reply msg type code) = Some (PyStr type).
Proof.
  unfold error_type, field, error_reply. simpl.
  rewrite lookup_insert_ne by discriminate. apply lookup_insert_eq.
Qed.

(** The first validation stage answers by itself when [data] is falsy. *)
Lemma predict_falsy data p :
  truthy data = false ->
  predict W (Ok data) p
  = (Ok (error_reply "No JSON data provided" "MissingData" 400), p).
Proof.
  intros Hd. unfold predict, predict_try. run. rewrite Hd. reflexivity.
Qed.

(** When [request.get_json()] returns a falsy value (the bodies [null],
    [{}], [[]], [0], [false] and the empty string), [predict] answers 400
    with error_type "MissingData" and does nothing else: the process state,
    with its list of collaborator calls and its generator position, is
    untouched, so no later stage ran. *)
Theorem predict_missing_data data p :
  truthy data = false ->
  exists r,
    predict W (Ok data) p = (Ok r, p)
    /\ status r = 400
    /\ error_type r = Some (PyStr "MissingData").
Proof.
  intros Hd. eexists. split; [apply predict_falsy, Hd|].
  split; [reflexivity | apply error_type_error_reply].
Qed.

(** A request without a body never reaches the data check: [get_json]
    raises inside the [try], and the last [except] clause answers 500 with
    the class of Flask's exception as error_type.  The process state is
    untouched. *)
Lemma predict_no_body (req : flask_request) p :
  decoded req = None ->
  predict W (get_json req) p
  = (Ok (error_reply
           ("Internal server error: "
            ++ exn_str (if is_json req then BadRequest
                        else UnsupportedMediaType))
           (if is_json req then "BadRequest" else "UnsupportedMediaType")
           500), p).
Proof.
  intros Hd. unfold get_json. rewrite Hd.
  destruct (is_json req); reflexivity.
Qed.

(** C10, as amended. A request whose JSON body is the empty mapping [{}] is
    answered 400 with error_type "MissingData" by the first stage, never
    reaching the "MissingField" check: the process state is untouched. *)
Theorem empty_mapping_missing_data p :
  exists r,
    predict W (get_json (json_request (PyDict ∅))) p = (Ok r, p)
    /\ status r = 400
    /\ error_type r = Some (PyStr "MissingData")
    /\ error_type r <> Some (PyStr "MissingField").
Proof.
  unfold get_json, json_request. simpl.
  rewrite predict_falsy by reflexivity.
  eexists. split; [reflexivity|]. split; [reflexivity|].
  rewrite error_type_error_reply. split; [reflexivity | discriminate].
Qed.

(** C8, as amended. A non-empty mapping without the key 'sequences' is
    answered 400 with error_type "MissingField". *)
Theorem predict_missing_field (m : gmap string (pyval FM)) p :
  m <> ∅ ->
  m !! "sequences" = None ->
  exists r,
    predict W (Ok (PyDict m)) p = (Ok r, p)
    /\ status r = 400
    /\ error_type r = Some (PyStr "MissingField").
Proof.
  intros Hne Hk.
  exists (error_reply "Missing 'sequences' field in request" "MissingField" 400).
  split; [|split; [reflexivity | apply error_type_error_reply]].
  unfold predict, predict_try. run.
  rewrite bool_decide_eq_false_2 by exact Hne. simpl.
  rewrite Hk. rewrite bool_decide_eq_false_2 by (intros [? [=]]).
  reflexivity.
Qed.

(** A body that is a mapping with the key 'sequences' passes the first two
    stages and reaches the coercion. *)
Lemma predict_try_sequences (m : gmap string (pyval FM)) raw p :
  m !! "sequences" = Some raw ->
  predict_try W (Ok (PyDict m)) p
  = match np_array raw with
    | Ok sequences =>
        if negb (ndim sequences =? 2)%nat
        then (Ok (error_reply "Sequences must be a 2D array"
                              "InvalidDimension" 400), p)
        else predict_sequences W sequences p
    | Raise e => (Raise e, p)
    end.
Proof.
  intros Hk. unfold predict_try. run.
  rewrite bool_decide_eq_false_2
    by (intros ->; rewrite lookup_empty in Hk; discriminate).
  simpl. rewrite Hk. rewrite bool_decide_eq_true_2 by eauto. simpl.
  destruct (np_array raw) as [a|e]; [|reflexivity].
  destruct (negb (ndim a =? 2)%nat); reflexivity.
Qed.

(** The [except] clauses always answer, with a two-field error body. *)
Lemma predict_except_run e p :
  predict_except e p
  = (Ok (if isinstance e "ValueError"
         then error_reply ("Invalid data format: " ++ exn_str e) "ValueError" 400
         else if isinstance e "KeyError"
         then error_reply ("Missing key in request: " ++ exn_str e) "KeyError" 400
         else error_reply ("Internal server error: " ++ exn_str e)
                          (exn_class e) 500), p).
Proof.
  unfold predict_except.
  destruct (isinstance e "ValueError"); [reflexivity|].
  destruct (isinstance e "KeyError"); reflexivity.
Qed.

(** C4, as amended. When the 'sequences' value is ragged, or coerces to an
    array whose number of dimensions is not 2 (a scalar, a 1-D list, a 3-D
    nesting), the answer is 400; its error_type is "InvalidDimension" for the
    arrays of the wrong dimension and "ValueError" for the ragged lists, which
    numpy refuses to coerce. *)
Theorem predict_not_two_dim (m : gmap string (pyval FM)) raw p :
  m !! "sequences" = Some raw ->
  discover raw = None \/ (exists a, np_array raw = Ok a /\ ndim a <> 2) ->
  exists r,
    predict W (Ok (PyDict m)) p = (Ok r, p)
    /\ status r = 400
    /\ error_type r
       = Some (PyStr (match discover raw with
                      | Some _ => "InvalidDimension"
                      | None => "ValueError"
                      end)).
Proof.
  intros Hk Hraw. unfold predict, try_except.
  rewrite (predict_try_sequences m raw p Hk).
  destruct Hraw as [Hr | (a & Ha & Hd)].
  - destruct (np_array_ragged raw Hr) as [msg ->]. rewrite Hr.
    rewrite predict_except_run. simpl.
    eexists. split; [reflexivity|]. split; [reflexivity|].
    apply error_type_error_reply.
  - rewrite Ha. rewrite (np_array_shape raw a Ha).
    apply Nat.eqb_neq in Hd. rewrite Hd. simpl.
    eexists. split; [reflexivity|]. split; [reflexivity|].
    apply error_type_error_reply.
Qed.

(** A model that raises makes the PREDICTION part raise, after the one call. *)
Lemma predict_sequences_raises h a n s e p :
  model (model_loader p) = Some h ->
  shape a = S n :: s ->
  h a = Raise e ->
  predict_sequences W a p
  = (Raise e,
     {| model_loader := model_loader p; rng := rng p;
        calls := calls p ++ [CallPredict a] |}).
Proof.
  intros Hm Hs He. unfold predict_sequences, model_predict, array_len. run.
  rewrite Hm, Hs. simpl. rewrite He. reflexivity.
Qed.

(** What the [except] clauses make of an error raised by the model on a
    request that passed validation: a body of the two fields error and
    error_type, the message being a fixed prefix followed by [str(e)];
    status 500 with the error's class name, except that the clauses written
    for JSON parsing errors and missing keys also catch a [ValueError] or
    [KeyError] of the model and answer 400. *)
Theorem predict_model_error (m : gmap string (pyval FM)) raw a h e p :
  model (model_loader p) = Some h ->
  m !! "sequences" = Some raw ->
  np_array raw = Ok a ->
  ndim a = 2 ->
  h a = Raise e ->
  exists prefix p',
    predict W (Ok (PyDict m)) p
    = (Ok (error_reply
             (prefix ++ exn_str e)
             (if isinstance e "ValueError" then "ValueError"
              else if isinstance e "KeyError" then "KeyError"
              else exn_class e)
             (if isinstance e "ValueError" || isinstance e "KeyError"
              then 400 else 500)), p')
    /\ calls p' = (calls p ++ [CallPredict a])%list.
Proof.
  intros Hm Hk Ha Hd He. unfold predict, try_except.
  rewrite (predict_try_sequences m raw p Hk), Ha.
  destruct (np_array_rows_positive raw a Ha Hd) as (n & L & Hs).
  rewrite Hd. simpl.
  rewrite (predict_sequences_raises h a n [L] e p Hm Hs He).
  rewrite predict_except_run.
  destruct (isinstance e "ValueError"); simpl; [eauto|].
  destruct (isinstance e "KeyError"); simpl; eauto.
Qed.

Lemma field_predictions (preds : pyval FM) v :
  field "predictions" (prediction_reply preds v) = Some preds.
Proof. unfold field, prediction_reply. simpl. apply lookup_insert_eq. Qed.

Lemma field_model_version (preds : pyval FM) v :
  field "model_version" (prediction_reply preds v) = Some (PyStr v).
Proof.
  unfold field, prediction_reply. simpl.
  rewrite lookup_insert_ne by discriminate. apply lookup_insert_eq.
Qed.

Lemma is_matrix_noise_rows start n m :
  is_matrix (PyList (map (fun row => PyList (map PyFloat row))
                         (noise_rows W start n m))) n m.
Proof.
  exists (map (fun row => PyList (map PyFloat row)) (noise_rows W start n m)).
  split; [reflexivity|]. unfold noise_rows. split.
  - now rewrite !length_map, length_seq.
  - rewrite map_map. apply Forall_forall. intros row Hin.
    apply list_elem_of_In, in_map_iff in Hin. destruct Hin as (i & <- & _).
    eexists. split; [reflexivity|]. now rewrite length_map, length_seq.
Qed.

(** The dummy branch run to its end: taken when no model is loaded or the
    array has no rows, it draws the rows and answers 200. *)
Lemma predict_sequences_dummy a n s p :
  shape a = n :: s ->
  model (model_loader p) = None \/ n = 0 ->
  predict_sequences W a p
  = (Ok (prediction_reply
           (PyList (map (fun row => PyList (map PyFloat row))
                        (noise_rows W (rng p) n 24)))
           (model_version (model_loader p))),
     {| model_loader := model_loader p;
        rng := rng p + n * 24;
        calls := calls p ++ [CallRandn n 24] |}).
Proof.
  intros Hs Hdummy.
  unfold predict_sequences, randn_tolist, shape0, array_len. run.
  rewrite Hs.
  destruct (model (model_loader p)) as [h|] eqn:Hm; simpl.
  - destruct Hdummy as [Hn|Hn]; [discriminate|]. subst n. reflexivity.
  - reflexivity.
Qed.

(** X3. With no model loaded, a request whose 'sequences' coerce to an array
    of shape (N, L) is answered 200 with N rows of 24 values and the label
    of the loader. *)
Lemma predict_dummy_request (m : gmap string (pyval FM)) raw a N L p :
  m !! "sequences" = Some raw ->
  np_array raw = Ok a ->
  shape a = [N; L] ->
  model (model_loader p) = None ->
  exists r preds p',
    predict W (Ok (PyDict m)) p = (Ok r, p')
    /\ status r = 200
    /\ field "predictions" r = Some preds
    /\ is_matrix preds N 24
    /\ field "model_version" r = Some (PyStr (model_version (model_loader p))).
Proof.
  intros Hk Ha Hs Hm. unfold predict, try_except.
  rewrite (predict_try_sequences m raw p Hk), Ha.
  unfold ndim. rewrite Hs. simpl.
  rewrite (predict_sequences_dummy a N [L] p Hs (or_introl Hm)).
  eexists _, _, _. split; [reflexivity|]. split; [reflexivity|].
  split; [apply field_predictions|].
  split; [apply is_matrix_noise_rows | apply field_model_version].
Qed.

(** An exception raised by [request.get_json()] itself is raised inside the
    [try], so the [except] clauses answer it. *)
Lemma predict_get_json_raises e p :
  isinstance e "ValueError" = false ->
  isinstance e "KeyError" = false ->
  predict W (Raise e) p
  = (Ok (error_reply ("Internal server error: " ++ exn_str e)
                     (exn_class e) 500), p).
Proof.
  intros Hv Hk. unfold predict, try_except, predict_try. run.
  rewrite predict_except_run, Hv, Hk. reflexivity.
Qed.

(** C2. For every 2-D input matrix of shape (N, L), N >= 0, a prediction
    served by the dummy path (no model handle, or no input rows) does not
    fail: it answers 200 with a predictions matrix of N rows of 24 values,
    which for N = 0 is the empty list. *)
Theorem dummy_path_shape a N L p :
  shape a = [N; L] ->
  model (model_loader p) = None \/ N = 0 ->
  exists r preds p',
    predict_sequences W a p = (Ok r, p')
    /\ status r = 200
    /\ field "predictions" r = Some preds
    /\ is_matrix preds N 24
    /\ (N = 0 -> preds = PyList [])
    /\ calls p' = (calls p ++ [CallRandn N 24])%list.
Proof.
  intros Hs Hdummy.
  rewrite (predict_sequences_dummy a N [L] p Hs Hdummy).
  eexists _, _, _. split; [reflexivity|]. split; [reflexivity|].
  split; [apply field_predictions|].
  split; [apply is_matrix_noise_rows|].
  split; [intros ->; reflexivity | reflexivity].
Qed.


(** A 200 answer of the [try] body went through every validation stage. *)
Lemma predict_try_success json p r p' :
  predict_try W json p = (Ok r, p') ->
  status r = 200 ->
  exists data raw a,
    json = Ok data
    /\ py_getitem data "sequences" = Ok raw
    /\ np_array raw = Ok a
    /\ ndim a = 2
    /\ predict_sequences W a p = (Ok r, p').
Proof.
  unfold predict_try. run. intros E Hst.
  destruct json as [data|e]; [|discriminate]. simpl in E.
  destruct (truthy data); simpl in E;
    [|injection E as <- <-; discriminate].
  destruct (py_contains "sequences" data) as [[|]|e]; simpl in E;
    [|injection E as <- <-; discriminate|discriminate].
  destruct (py_getitem data "sequences") as [raw|e] eqn:Hget; simpl in E;
    [|discriminate].
  destruct (np_array raw) as [a|e] eqn:Ha; simpl in E; [|discriminate].
  destruct (ndim a =? 2)%nat eqn:Hd; simpl in E;
    [|injection E as <- <-; discriminate].
  apply Nat.eqb_eq in Hd. exists data, raw, a. auto.
Qed.

(** The PREDICTION part hands back as many rows as it was given, provided
    the model does. *)
Lemma predict_sequences_rows a n s p r p' :
  (forall h, model (model_loader p) = Some h -> preserves_rows h) ->
  shape a = n :: s ->
  predict_sequences W a p = (Ok r, p') ->
  exists preds, field "predictions" r = Some preds /\ py_len preds = Ok n.
Proof.
  intros Hrows Hs.
  destruct (model (model_loader p)) as [h|] eqn:Hm.
  - destruct n as [|n].
    + rewrite (predict_sequences_dummy a 0 s p Hs (or_intror eq_refl)).
      intros [= <- <-]. eexists. split; [apply field_predictions|reflexivity].
    + specialize (Hrows h eq_refl a).
      unfold predict_sequences, model_predict, array_len. run.
      rewrite Hm, Hs. simpl.
      unfold array_len in Hrows. rewrite Hs in Hrows.
      destruct (h a) as [o|e]; simpl; [|discriminate].
      specialize (Hrows o eq_refl).
      destruct o as [a'|v|c sz]; simpl in *.
      * rewrite (py_len_tolist a' (S n) Hrows). simpl.
        intros [= <- <-]. eexists.
        split; [apply field_predictions | apply py_len_tolist, Hrows].
      * rewrite Hrows. simpl. intros [= <- <-]. eexists.
        split; [apply field_predictions | exact Hrows].
      * destruct sz; simpl; discriminate.
  - rewrite (predict_sequences_dummy a n s p Hs (or_introl Hm)).
    intros [= <- <-]. eexists. split; [apply field_predictions|].
    simpl. unfold noise_rows. now rewrite !length_map, length_seq.
Qed.

(** C6. Every 200 answer of [predict] carries a predictions value with as
    many rows as the validated input matrix has, on the dummy path and, when
    the loaded model preserves the row count, on the model path. *)
Theorem prediction_rows json p r p' :
  (forall h, model (model_loader p) = Some h -> preserves_rows h) ->
  predict W json p = (Ok r, p') ->
  status r = 200 ->
  exists data raw a preds n,
    json = Ok data
    /\ py_getitem data "sequences" = Ok raw
    /\ np_array raw = Ok a
    /\ array_len a = Ok n
    /\ field "predictions" r = Some preds
    /\ py_len preds = Ok n.
Proof.
  intros Hrows. unfold predict, try_except.
  destruct (predict_try W json p) as [[r0|e] p0] eqn:E.
  - intros [= <- <-] Hst.
    destruct (predict_try_success json p r0 p0 E Hst)
      as (data & raw & a & -> & Hget & Ha & Hd & Hrun).
    unfold ndim in Hd.
    destruct (shape a) as [|n s] eqn:Hs; [discriminate|].
    destruct (predict_sequences_rows a n s p r0 p0 Hrows Hs Hrun)
      as (preds & Hf & Hl).
    exists data, raw, a, preds, n. unfold array_len. rewrite Hs. auto 10.
  - rewrite predict_except_run. intros [= <- <-].
    destruct (isinstance e "ValueError"); [discriminate|].
    destruct (isinstance e "KeyError"); discriminate.
Qed.

End PredictProperties.

(** * Concrete runs *)

Section Runs.
#[local] Existing Instance int_floats.

Lemma zeros_model_preserves_rows : preserves_rows zeros_model.
Proof.
  intros a o. unfold zeros_model, array_len.
  destruct (shape a) as [|n s]; [discriminate|].
  intros [= <-]. reflexivity.
Qed.

(** [{"sequences": []}]: the empty list is a 1-D array to numpy, so an
    input of no rows is turned away by the dimension check and never
    reaches the PREDICTION part. *)
Example empty_list_is_one_dimensional :
  np_array (PyList []) = Ok (NdArray [0] [])
  /\ answer (predict empty_registry (sequences_body (PyList []))
                     (started empty_registry))
     = Some (400, Some (PyStr "InvalidDimension")).
Proof. split; vm_compute; reflexivity. Qed.

(** [{"sequences": [[1,2,3,4]]}] with no model loaded: 200, one row of 24
    values, model_version "dummy". *)
Example one_row_dummy :
  exists r p',
    predict empty_registry (sequences_body one_row) (started empty_registry)
    = (Ok r, p')
    /\ status r = 200
    /\ (discover <$> field "predictions" r) = Some (Some [1; 24])
    /\ field "model_version" r = Some (PyStr "dummy").
Proof.
  eexists _, _. split; [vm_compute; reflexivity|].
  split; [reflexivity|]. split; vm_compute; reflexivity.
Qed.

(** The body [null]. *)
Lemma predict_missing_data_witness :
  truthy PyNone = false
  /\ exists r,
       predict empty_registry (Ok PyNone) (started empty_registry)
       = (Ok r, started empty_registry)
       /\ status r = 400
       /\ error_type r = Some (PyStr "MissingData").
Proof.
  split; [reflexivity|].
  apply (predict_missing_data empty_registry PyNone). reflexivity.
Defined.

(** C8: the empty mapping lacks the key and is answered "MissingData". *)
Lemma empty_mapping_not_missing_field :
  (∅ : gmap string (pyval int_floats)) !! "sequences" = None
  /\ answer (predict empty_registry (Ok (PyDict ∅)) (started empty_registry))
     = Some (400, Some (PyStr "MissingData"))
  /\ answer (predict empty_registry (Ok (PyDict ∅)) (started empty_registry))
     <> Some (400, Some (PyStr "MissingField")).
Proof.
  split; [reflexivity|].
  assert (E : answer (predict empty_registry (Ok (PyDict ∅))
                              (started empty_registry))
              = Some (400, Some (PyStr "MissingData")))
    by (vm_compute; reflexivity).
  split; [exact E | rewrite E; discriminate].
Qed.

(** C8 as amended, at [{"horizon": 24}]. *)
Lemma predict_missing_field_witness :
  exists r,
    predict empty_registry (Ok (PyDict {["horizon" := PyInt 24]}))
            (started empty_registry)
    = (Ok r, started empty_registry)
    /\ status r = 400
    /\ error_type r = Some (PyStr "MissingField").
Proof.
  apply (predict_missing_field empty_registry {["horizon" := PyInt 24]}).
  - apply map_non_empty_singleton.
  - reflexivity.
Defined.

(** C4: the ragged [[1,2],[3,4,5]] is answered 400 with error_type
    "ValueError", not "InvalidDimension". *)
Lemma ragged_rows_value_error :
  discover ragged_rows = None
  /\ answer (predict empty_registry (sequences_body ragged_rows)
                     (started empty_registry))
     = Some (400, Some (PyStr "ValueError"))
  /\ answer (predict empty_registry (sequences_body ragged_rows)
                     (started empty_registry))
     <> Some (400, Some (PyStr "InvalidDimension")).
Proof.
  split; [reflexivity|].
  assert (E : answer (predict empty_registry (sequences_body ragged_rows)
                              (started empty_registry))
              = Some (400, Some (PyStr "ValueError")))
    by (vm_compute; reflexivity).
  split; [exact E | rewrite E; discriminate].
Qed.

(** C4 as amended, at the 1-D list [1,2,3]. *)
Lemma predict_not_two_dim_witness :
  exists r,
    predict empty_registry (sequences_body flat_list) (started empty_registry)
    = (Ok r, started empty_registry)
    /\ status r = 400
    /\ error_type r = Some (PyStr "InvalidDimension").
Proof.
  apply (predict_not_two_dim empty_registry {["sequences" := flat_list]}
                             flat_list).
  - reflexivity.
  - right. exists flat_array.
    split; [reflexivity | discriminate].
Defined.

(** C3. The claim fails on the code at a model that raises [ValueError] on
    a valid request: the clause [except ValueError], commented "Handle JSON
    parsing errors", is the first to match, and the answer is 400 with
    error_type "ValueError", not a 500-class response. *)
Lemma rejecting_model_answered_400 :
  model (model_loader (started (registry_with rejecting_model)))
  = Some rejecting_model
  /\ np_array one_row = Ok one_row_array
  /\ isinstance (ValueError "Input 0 of layer is incompatible with the layer")
                "ValueError" = true
  /\ answer (predict (registry_with rejecting_model) (sequences_body one_row)
                     (started (registry_with rejecting_model)))
     = Some (400, Some (PyStr "ValueError")).
Proof. repeat split; vm_compute; reflexivity. Qed.

(** A model that raises [RuntimeError] on the same request is answered
    500. *)
Lemma predict_model_error_witness :
  exists prefix p',
    predict (registry_with broken_model) (sequences_body one_row)
            (started (registry_with broken_model))
    = (Ok (error_reply (prefix ++ "session closed") "RuntimeError" 500), p')
    /\ calls p'
       = (calls (started (registry_with broken_model))
          ++ [CallPredict one_row_array])%list.
Proof.
  apply (predict_model_error (registry_with broken_model)
           {["sequences" := one_row]} one_row
           one_row_array broken_model
           (Exn "RuntimeError" [] "session closed")); reflexivity.
Defined.

(** C2, at the array of [[1,2,3,4]] with no model loaded. *)
Lemma dummy_path_shape_witness :
  exists r preds p',
    predict_sequences empty_registry one_row_array (started empty_registry)
    = (Ok r, p')
    /\ status r = 200
    /\ field "predictions" r = Some preds
    /\ is_matrix preds 1 24
    /\ (1 = 0 -> preds = PyList [])
    /\ calls p' = (calls (started empty_registry) ++ [CallRandn 1 24])%list.
Proof.
  apply (dummy_path_shape empty_registry one_row_array 1 4).
  - reflexivity.
  - left. reflexivity.
Defined.

(** The dummy branch on an array of shape (0, 4) with a model loaded: the
    empty list. *)
Example dummy_path_no_rows :
  exists r p',
    predict_sequences (registry_with zeros_model) no_rows
                      (started (registry_with zeros_model))
    = (Ok r, p')
    /\ status r = 200
    /\ field "predictions" r = Some (PyList []).
Proof.
  rewrite (predict_sequences_dummy (registry_with zeros_model) no_rows 0 [4]
             (started (registry_with zeros_model)) eq_refl
             (or_intror eq_refl)).
  eexists _, _. split; [reflexivity|]. split; [reflexivity|].
  apply field_predictions.
Qed.

(** C6, at [{"sequences": [[1,2,3,4]]}] with the Production model loaded:
    one row in, one row of 24 zeros out. *)
Lemma prediction_rows_witness :
  exists data raw a preds n,
    sequences_body one_row = Ok data
    /\ py_getitem data "sequences" = Ok raw
    /\ np_array raw = Ok a
    /\ array_len a = Ok n
    /\ field "predictions"
         (prediction_reply zero_row
                           "production")
       = Some preds
    /\ py_len preds = Ok n.
Proof.
  apply (prediction_rows (registry_with zeros_model)
           (sequences_body one_row)
           (started (registry_with zeros_model))
           (prediction_reply
              zero_row "production")
           {| model_loader :=
                model_loader (started (registry_with zeros_model));
              rng := 0;
              calls := calls (started (registry_with zeros_model))
                       ++ [CallPredict one_row_array] |}).
  - intros h [= <-]. exact zeros_model_preserves_rows.
  - vm_compute. reflexivity.
  - reflexivity.
Defined.

End Runs.

(** * The remaining paths of [predict] *)

Section PredictPaths.
Context {FM : FloatModel}.
Variable W : World.

Lemma field_error_reply_other k msg type code :
  k <> "error" -> k <> "error_type" ->
  field k (error_reply msg type code) = None.
Proof.
  intros H1 H2. unfold field, error_reply. simpl.
  rewrite !lookup_insert_ne by congruence. apply lookup_empty.
Qed.

Lemma error_type_prediction_reply (preds : pyval FM) v :
  error_type (prediction_reply preds v) = None.
Proof.
  unfold error_type, field, prediction_reply. simpl.
  rewrite !lookup_insert_ne by discriminate. apply lookup_empty.
Qed.

(** The PREDICTION part either answers 200 with the loader's label or
    raises. *)
Lemma predict_sequences_outcome a p :
  (exists preds p',
      predict_sequences W a p
      = (Ok (prediction_reply preds (model_version (model_loader p))), p'))
  \/ (exists e p', predict_sequences W a p = (Raise e, p')).
Proof.
  unfold predict_sequences, model_predict, randn_tolist, shape0, array_len.
  run.
  destruct (model (model_loader p)) as [h|];
    destruct (shape a) as [|[|n] s]; simpl; eauto.
  destruct (h a) as [[a'|v|c sz]|e]; simpl; eauto.
  - destruct (py_len (tolist a')); simpl; eauto.
  - destruct (py_len v); simpl; eauto.
  - destruct sz; simpl; eauto.
Qed.

(** What [predict] answers is a prediction under the loader's label, or a
    two-field error with status 400 or 500. *)
Lemma predict_answer_form json p :
  exists r p',
    predict W json p = (Ok r, p')
    /\ ((exists preds,
           r = prediction_reply preds (model_version (model_loader p)))
        \/ (exists msg type code,
              r = error_reply msg type code /\ (code = 400 \/ code = 500))).
Proof.
  assert (Hexc : forall e p0, exists r,
             predict_except e p0 = (Ok r, p0)
             /\ exists msg type code,
                  r = error_reply msg type code /\ (code = 400 \/ code = 500)).
  { intros e p0. rewrite predict_except_run.
    destruct (isinstance e "ValueError"); [eauto 10|].
    destruct (isinstance e "KeyError"); eauto 10. }
  unfold predict, try_except, predict_try. run.
  destruct json as [data|e]; simpl;
    [|destruct (Hexc e p) as (r & -> & Hr); eauto].
  destruct (truthy data); simpl; [|eauto 10].
  destruct (py_contains "sequences" data) as [[|]|e]; simpl;
    [| eauto 10 | destruct (Hexc e p) as (r & -> & Hr); eauto].
  destruct (py_getitem data "sequences") as [raw|e]; simpl;
    [|destruct (Hexc e p) as (r & -> & Hr); eauto].
  destruct (np_array raw) as [a|e]; simpl;
    [|destruct (Hexc e p) as (r & -> & Hr); eauto].
  destruct (ndim a =? 2)%nat; simpl; [|eauto 10].
  destruct (predict_sequences_outcome a p)
    as [(preds & p' & ->) | (e & p' & ->)]; [eauto 10|].
  destruct (Hexc e p') as (r & -> & Hr); eauto.
Qed.

(** X1. [predict] never lets an exception escape: it always returns a
    response, with status 200, 400 or 500; a 200 response carries
    predictions and no error_type, any other carries an error_type and no
    predictions. *)
Theorem predict_always_answers json p :
  exists r p',
    predict W json p = (Ok r, p')
    /\ (status r = 200 \/ status r = 400 \/ status r = 500)
    /\ (if (status r =? 200)%nat
        then is_Some (field "predictions" r) /\ error_type r = None
        else is_Some (error_type r) /\ field "predictions" r = None).
Proof.
  destruct (predict_answer_form json p)
    as (r & p' & Hrun & [(preds & ->) | (msg & type & code & -> & Hcode)]).
  - exists (prediction_reply preds (model_version (model_loader p))), p'.
    split; [exact Hrun|]. split; [auto|]. simpl.
    rewrite field_predictions, error_type_prediction_reply. eauto.
  - exists (error_reply msg type code), p'.
    split; [exact Hrun|]. split; [simpl; tauto|].
    rewrite error_type_error_reply.
    rewrite field_error_reply_other by discriminate.
    destruct Hcode as [-> | ->]; simpl; eauto.
Qed.

(** With a model loaded and at least one row, the PREDICTION part calls the
    model once and touches nothing else, whatever the model does. *)
Lemma predict_sequences_model_state h a n s p :
  model (model_loader p) = Some h ->
  shape a = S n :: s ->
  snd (predict_sequences W a p)
  = {| model_loader := model_loader p; rng := rng p;
       calls := calls p ++ [CallPredict a] |}.
Proof.
  intros Hm Hs. unfold predict_sequences, model_predict, array_len. run.
  rewrite Hm, Hs. simpl.
  destruct (h a) as [[a'|v|c sz]|e]; simpl; try reflexivity.
  - destruct (py_len (tolist a')); reflexivity.
  - destruct (py_len v); reflexivity.
  - destruct sz; reflexivity.
Qed.

(** The state [predict] leaves: the one it found, or the one the PREDICTION
    part left on the validated array. *)
Lemma predict_state json p :
  snd (predict W json p) = p
  \/ exists data raw a,
       json = Ok data
       /\ py_getitem data "sequences" = Ok raw
       /\ np_array raw = Ok a
       /\ ndim a = 2
       /\ snd (predict W json p) = snd (predict_sequences W a p).
Proof.
  unfold predict, try_except, predict_try. run.
  destruct json as [data|e]; simpl;
    [|rewrite predict_except_run; auto].
  destruct (truthy data); simpl; [|auto].
  destruct (py_contains "sequences" data) as [[|]|e]; simpl;
    [| auto | rewrite predict_except_run; auto].
  destruct (py_getitem data "sequences") as [raw|e] eqn:Hget; simpl;
    [|rewrite predict_except_run; auto].
  destruct (np_array raw) as [a|e] eqn:Ha; simpl;
    [|rewrite predict_except_run; auto].
  destruct (ndim a =? 2)%nat eqn:Hd; simpl; [|auto].
  right. exists data, raw, a. apply Nat.eqb_eq in Hd.
  repeat (split; [solve [auto]|]).
  destruct (predict_sequences W a p) as [[r|e] p']; simpl;
    [reflexivity | rewrite predict_except_run; reflexivity].
Qed.

(** X2. While a model is loaded, no request is served from the random
    generator: [predict] leaves numpy's generator where it was, and the only
    collaborator it may call is the model, once.  (The [len(sequences) > 0]
    guard never sends a request to the dummy branch: a 2-D array built from
    a JSON body has at least one row.) *)
Theorem loaded_model_never_dummy h json p :
  model (model_loader p) = Some h ->
  rng (snd (predict W json p)) = rng p
  /\ (calls (snd (predict W json p)) = calls p
      \/ exists a,
           calls (snd (predict W json p))
           = (calls p ++ [CallPredict a])%list).
Proof.
  intros Hm.
  destruct (predict_state json p)
    as [-> | (data & raw & a & _ & _ & Ha & Hd & ->)]; [auto|].
  destruct (np_array_rows_positive raw a Ha Hd) as (n & L & Hs).
  rewrite (predict_sequences_model_state h a n [L] p Hm Hs). simpl. eauto.
Qed.

(** X4. With a model loaded, a request that passes validation and whose
    prediction is a sized array or a sized plain value is answered 200 with
    that prediction in list form ([tolist] of an array) under the loader's
    label, after exactly one call of the model. *)
Theorem predict_model_success (m : gmap string (pyval FM)) raw a h o p :
  model (model_loader p) = Some h ->
  m !! "sequences" = Some raw ->
  np_array raw = Ok a ->
  ndim a = 2 ->
  h a = Ok o ->
  unanswerable o = false ->
  exists preds,
    predictions_of o = Some preds
    /\ predict W (Ok (PyDict m)) p
       = (Ok (prediction_reply preds (model_version (model_loader p))),
          {| model_loader := model_loader p; rng := rng p;
             calls := calls p ++ [CallPredict a] |}).
Proof.
  intros Hm Hk Ha Hd Ho Hans. unfold predict, try_except.
  rewrite (predict_try_sequences W m raw p Hk), Ha, Hd. simpl.
  destruct (np_array_rows_positive raw a Ha Hd) as (n & L & Hs).
  unfold predict_sequences, model_predict, array_len. run.
  rewrite Hm, Hs. simpl. rewrite Ho. simpl.
  destruct o as [a'|v|c sz]; simpl in *; [| |discriminate].
  - exists (tolist a'). split; [reflexivity|].
    apply bool_decide_eq_false in Hans.
    destruct (shape a') as [|k s'] eqn:Hs'; [congruence|].
    rewrite (py_len_tolist a' k) by (unfold array_len; now rewrite Hs').
    reflexivity.
  - exists v. split; [reflexivity|].
    destruct (py_len v); [reflexivity | discriminate].
Qed.

(** X5. With a model loaded, a request that passes validation but whose
    prediction has no [len] (a 0-d array, a bare number) or is not JSON
    serialisable is answered 500 with error_type "TypeError", although the
    model itself succeeded: the [len] taken for the log line, or [jsonify],
    raises inside the [try]. *)
Theorem predict_unanswerable (m : gmap string (pyval FM)) raw a h o p :
  model (model_loader p) = Some h ->
  m !! "sequences" = Some raw ->
  np_array raw = Ok a ->
  ndim a = 2 ->
  h a = Ok o ->
  unanswerable o = true ->
  exists r p',
    predict W (Ok (PyDict m)) p = (Ok r, p')
    /\ status r = 500
    /\ error_type r = Some (PyStr "TypeError").
Proof.
  intros Hm Hk Ha Hd Ho Hans. unfold predict, try_except.
  rewrite (predict_try_sequences W m raw p Hk), Ha, Hd. simpl.
  destruct (np_array_rows_positive raw a Ha Hd) as (n & L & Hs).
  unfold predict_sequences, model_predict, array_len. run.
  rewrite Hm, Hs. simpl. rewrite Ho. simpl.
  destruct o as [a'|v|c sz]; simpl in *.
  - apply bool_decide_eq_true in Hans. unfold tolist. rewrite Hans.
    destruct (map f64_of_f32 (cells a')); simpl;
      (eexists _, _; split; [reflexivity|]; split; [reflexivity|];
       apply error_type_error_reply).
  - destruct v; simpl in *; try discriminate;
      (eexists _, _; split; [reflexivity|]; split; [reflexivity|];
       apply error_type_error_reply).
  - destruct sz; simpl;
      (eexists _, _; split; [reflexivity|]; split; [reflexivity|];
       apply error_type_error_reply).
Qed.

(** X6. A body that is a non-empty JSON array passes the data check; it is
    answered 400 "MissingField" unless one of its items is the string
    'sequences', in which case the membership test succeeds, the
    subscript [data['sequences']] raises and the answer is 500
    "TypeError".  The process state is untouched either way. *)
Theorem predict_array_body (l : list (pyval FM)) p :
  l <> [] ->
  exists r,
    predict W (Ok (PyList l)) p = (Ok r, p)
    /\ status r = (if existsb (is_str "sequences") l then 500 else 400)
    /\ error_type r
       = Some (PyStr (if existsb (is_str "sequences") l
                      then "TypeError" else "MissingField")).
Proof.
  intros Hl. unfold predict, try_except, predict_try. run.
  rewrite bool_decide_eq_false_2 by exact Hl. simpl.
  destruct (existsb (is_str "sequences") l); simpl;
    (eexists; split; [reflexivity|]; split; [reflexivity|];
     apply error_type_error_reply).
Qed.

(** X7. A truthy body that is a bare number or [true] is answered 500
    "TypeError": the membership test ['sequences' not in data] raises on
    it.  The process state is untouched. *)
Theorem predict_scalar_body (data : pyval FM) p :
  truthy data = true ->
  not_iterable data = true ->
  exists r,
    predict W (Ok data) p = (Ok r, p)
    /\ status r = 500
    /\ error_type r = Some (PyStr "TypeError").
Proof.
  intros Ht Hn. unfold predict, try_except, predict_try. run.
  rewrite Ht. simpl.
  destruct data; simpl in *; try discriminate;
    (eexists; split; [reflexivity|]; split; [reflexivity|];
     apply error_type_error_reply).
Qed.

Lemma rmapM_first_failure {A B} (f : A -> result B) good bad rest e :
  Forall (fun x => exists y, f x = Ok y) good ->
  f bad = Raise e ->
  rmapM f (good ++ bad :: rest) = Raise e.
Proof.
  intros Hgood Hbad. induction Hgood as [|x good (y & Hy) _ IH]; simpl.
  - now rewrite Hbad.
  - now rewrite Hy, IH.
Qed.

(** X8. When the 'sequences' value has a rectangular shape but one of its
    scalars cannot be stored as float32, the first such scalar decides the
    answer: a string that spells no float gives 400 "ValueError", an object
    gives 500 "TypeError", an integer too large for a float gives 500
    "OverflowError".  The process state is untouched. *)
Theorem predict_bad_scalar (m : gmap string (pyval FM)) raw s good bad rest e p :
  m !! "sequences" = Some raw ->
  discover raw = Some s ->
  length s <= NPY_MAXDIMS ->
  leaves raw = (good ++ bad :: rest)%list ->
  Forall (fun v => exists x, setitem v = Ok x) good ->
  setitem bad = Raise e ->
  exists r,
    predict W (Ok (PyDict m)) p = (Ok r, p)
    /\ status r = bad_leaf_status bad
    /\ error_type r = Some (PyStr (bad_leaf_class bad)).
Proof.
  intros Hk Hs Hlen Hleaves Hgood Hbad. unfold predict, try_except.
  rewrite (predict_try_sequences W m raw p Hk).
  unfold np_array. rewrite Hs, bool_decide_eq_true_2 by exact Hlen.
  rewrite Hleaves, (rmapM_first_failure setitem good bad rest e Hgood Hbad).
  simpl. rewrite predict_except_run.
  destruct bad; simpl in Hbad; try discriminate.
  - destruct (f32_of_int z); [discriminate|]. injection Hbad as <-. simpl.
    eexists. split; [reflexivity|]. split; [reflexivity|].
    apply error_type_error_reply.
  - destruct (f32_of_str s0); [discriminate|]. injection Hbad as <-. simpl.
    eexists. split; [reflexivity|]. split; [reflexivity|].
    apply error_type_error_reply.
  - injection Hbad as <-. simpl.
    eexists. split; [reflexivity|]. split; [reflexivity|].
    apply error_type_error_reply.
  - injection Hbad as <-. simpl.
    eexists. split; [reflexivity|]. split; [reflexivity|].
    apply error_type_error_reply.
Qed.


End PredictPaths.

(** * The loader's methods and the other views *)

Section LoaderAndViews.
Context {FM : FloatModel}.
Variable W : World.

Lemma substring_prefix n (s : string) :
  String.prefix (String.substring 0 n s) s = true.
Proof.
  revert n. induction s as [|c s IH]; intros [|n]; simpl; try reflexivity.
  destruct (Ascii.ascii_dec c c) as [_|Hc]; [apply IH | congruence].
Qed.

Lemma substring_length n (s : string) :
  String.length (String.substring 0 n s) = Nat.min n (String.length s).
Proof.
  revert n. induction s as [|c s IH]; intros [|n]; simpl; try reflexivity.
  now rewrite IH.
Qed.

(** X9. Neither tier raises, and a tier that misses leaves the loader exactly
    as it found it (no half-written model or label); a tier that hits sets
    the model it loaded together with its label and keeps the tracking
    URI. *)
Theorem tier_hit_or_untouched p :
  (exists b p',
      load_production_model W p = (Ok b, p')
      /\ if b
         then exists h,
                mlflow_load_model W production_uri = Ok h
                /\ model_loader p'
                   = {| model := Some h; model_version := "production";
                        mlflow_tracking_uri :=
                          mlflow_tracking_uri (model_loader p) |}
         else model_loader p' = model_loader p)
  /\ (exists b p',
        load_latest_model W p = (Ok b, p')
        /\ if b
           then exists r rs h,
                  search_runs W = Ok (r :: rs)
                  /\ mlflow_load_model W (run_uri (run_id r)) = Ok h
                  /\ model_loader p'
                     = {| model := Some h;
                          model_version := String.substring 0 8 (run_id r);
                          mlflow_tracking_uri :=
                            mlflow_tracking_uri (model_loader p) |}
           else model_loader p' = model_loader p).
Proof.
  split.
  - unfold load_production_model, load_model_uri. run.
    destruct (mlflow_load_model W production_uri) as [h|e] eqn:E; simpl.
    + exists true. eexists. split; [reflexivity|]. eauto.
    + exists false. eexists. split; reflexivity.
  - unfold load_latest_model, client_search_runs, load_model_uri. run.
    destruct (search_runs W) as [[|r rs]|e] eqn:Es; simpl.
    + exists false. eexists. split; reflexivity.
    + destruct (mlflow_load_model W (run_uri (run_id r))) as [h|e] eqn:E;
        simpl.
      * exists true. eexists. split; [reflexivity|]. eauto 6.
      * exists false. eexists. split; reflexivity.
    + exists false. eexists. split; reflexivity.
Qed.

(** X10. The label Tier 2 leaves is a prefix of the run identifier, of 8
    characters or of the whole identifier when that is shorter. *)
Theorem latest_label_is_prefix p p' :
  load_latest_model W p = (Ok true, p') ->
  exists r rs,
    search_runs W = Ok (r :: rs)
    /\ String.prefix (model_version (model_loader p')) (run_id r) = true
    /\ String.length (model_version (model_loader p'))
       = Nat.min 8 (String.length (run_id r)).
Proof.
  unfold load_latest_model, client_search_runs, load_model_uri. run.
  destruct (search_runs W) as [[|r rs]|e]; simpl; try discriminate.
  destruct (mlflow_load_model W (run_uri (run_id r))); simpl;
    [|discriminate].
  intros [= <-]. exists r, rs. simpl.
  split; [reflexivity|]. split; [apply substring_prefix|apply substring_length].
Qed.

(** X11. [load_model] run again on any loader, when both tiers miss, does
    not raise and sets the label to "dummy" but never clears the model: a
    model loaded earlier stays in place under the label "dummy". *)
Theorem load_model_keeps_model p :
  resolve_spec W = Unavailable ->
  exists p',
    load_model W p = (Ok tt, p')
    /\ model_loader p'
       = {| model := model (model_loader p);
            model_version := "dummy";
            mlflow_tracking_uri := mlflow_tracking_uri (model_loader p) |}.
Proof.
  unfold resolve_spec, load_model, bind.
  destruct (mlflow_load_model W production_uri) as [h|e] eqn:E1;
    [discriminate|].
  rewrite (load_production_model_miss W e _ E1).
  unfold load_latest_model, client_search_runs, load_model_uri. run.
  destruct (search_runs W) as [[|r rs]|e2]; simpl; eauto.
  destruct (mlflow_load_model W (run_uri (run_id r))); simpl;
    [discriminate | eauto].
Qed.

Lemma health_check_fields now p :
  exists r,
    health_check now p = (Ok r, p)
    /\ status r = 200
    /\ field "status" r = Some (PyStr "healthy")
    /\ field "model" r
       = Some (PyStr (if model_truthy (model (model_loader p))
                      then "loaded" else "dummy"))
    /\ field "model_version" r
       = Some (PyStr (model_version (model_loader p))).
Proof.
  eexists. split; [reflexivity|]. split; [reflexivity|].
  unfold field. simpl.
  repeat split;
    repeat (rewrite lookup_insert_ne by discriminate);
    apply lookup_insert_eq.
Qed.

Lemma model_info_fields p :
  exists r,
    model_info p = (Ok r, p)
    /\ status r = 200
    /\ field "model_loaded" r
       = Some (PyBool (model_truthy (model (model_loader p))))
    /\ field "model_version" r
       = Some (PyStr (model_version (model_loader p)))
    /\ field "mlflow_tracking_uri" r
       = Some (PyStr (mlflow_tracking_uri (model_loader p))).
Proof.
  eexists. split; [reflexivity|]. split; [reflexivity|].
  unfold field. simpl.
  repeat split;
    repeat (rewrite lookup_insert_ne by discriminate);
    apply lookup_insert_eq.
Qed.

(** X12. For the whole life of the process, whatever requests came before,
    [/health] and [/info] report what resolution decided at start-up:
    "loaded" / [true] exactly when Tier 1 or Tier 2 produced a model,
    the same model_version in both, and the default tracking URI. *)
Theorem views_report_outcome (rs : list request) now :
  let p := snd (serve W rs (snd (startup W))) in
  exists rh ri,
    health_check now p = (Ok rh, p)
    /\ model_info p = (Ok ri, p)
    /\ field "model" rh
       = Some (PyStr (match resolve_spec W with
                      | Unavailable => "dummy"
                      | _ => "loaded"
                      end))
    /\ field "model_loaded" ri
       = Some (PyBool (match resolve_spec W with
                       | Unavailable => false
                       | _ => true
                       end))
    /\ field "model_version" rh
       = Some (PyStr (model_version (loader_of (resolve_spec W))))
    /\ field "model_version" ri = field "model_version" rh
    /\ field "mlflow_tracking_uri" ri = Some (PyStr "http://mlflow:5000").
Proof.
  intros p.
  assert (Hp : model_loader p = loader_of (resolve_spec W)).
  { unfold p. rewrite (reads_serve W rs). apply startup_loader. }
  destruct (health_check_fields now p) as (rh & Hh & _ & _ & Hm & Hv).
  destruct (model_info_fields p) as (ri & Hi & _ & Hl & Hvi & Hu).
  exists rh, ri. rewrite Hp in *.
  split; [exact Hh|]. split; [exact Hi|].
  rewrite Hm, Hl, Hv, Hvi, Hu.
  destruct (resolve_spec W); simpl; auto 10.
Qed.

(** Every route answers, in the way [answered_under] describes. *)
Lemma dispatch_label r p :
  exists x p',
    dispatch W r p = (Ok x, p')
    /\ answered_under (model_version (model_loader p)) r x.
Proof.
  destruct r as [now|json| |exposition]; simpl.
  - destruct (health_check_fields now p) as (x & Hx & _ & _ & _ & Hv). eauto.
  - destruct (predict_answer_form W json p)
      as (x & p' & Hx & [(preds & ->) | (msg & type & code & -> & Hc)]).
    + exists (prediction_reply preds (model_version (model_loader p))), p'.
      split; [exact Hx|]. intros _. apply field_model_version.
    + exists (error_reply msg type code), p'. split; [exact Hx|].
      simpl. intros ->. destruct Hc; discriminate.
  - destruct (model_info_fields p) as (x & Hx & _ & _ & Hv & _). eauto.
  - eexists _, _. split; reflexivity.
Qed.

(** X13. Serving any sequence of requests never raises and answers each of
    them in turn.  Every 200 answer of [/health], [/info] and [/predict]
    carries one and the same model_version, the label the loader had when
    serving began; [/metrics] is answered by the exporter, 200 with its
    text and no model_version. *)
Theorem serve_answers_under_one_label (rs : list request) p :
  exists xs p',
    serve W rs p = (Ok xs, p')
    /\ Forall2 (answered_under (model_version (model_loader p))) rs xs.
Proof.
  revert p. induction rs as [|r rs IH]; intros p; simpl.
  - exists [], p. split; [reflexivity|constructor].
  - destruct (dispatch_label r p) as (x & p1 & Hx & Hlabel).
    destruct (IH p1) as (xs & p2 & Hxs & Hall).
    exists (x :: xs), p2. unfold bind. rewrite Hx, Hxs.
    split; [reflexivity|].
    assert (Hp1 : model_loader p1 = model_loader p).
    { pose proof (reads_dispatch W r p) as H. now rewrite Hx in H. }
    constructor; [exact Hlabel|]. now rewrite Hp1 in Hall.
Qed.

End LoaderAndViews.

(** * More concrete runs *)

Section MoreRuns.
#[local] Existing Instance int_floats.

(** X2, at a valid request served by the loaded Production model. *)
Lemma loaded_model_never_dummy_witness :
  rng (snd (predict (registry_with zeros_model) (sequences_body one_row)
                    (started (registry_with zeros_model))))
  = rng (started (registry_with zeros_model))
  /\ (calls (snd (predict (registry_with zeros_model) (sequences_body one_row)
                          (started (registry_with zeros_model))))
      = calls (started (registry_with zeros_model))
      \/ exists a,
           calls (snd (predict (registry_with zeros_model)
                               (sequences_body one_row)
                               (started (registry_with zeros_model))))
           = (calls (started (registry_with zeros_model))
              ++ [CallPredict a])%list).
Proof.
  apply (loaded_model_never_dummy (registry_with zeros_model) zeros_model).
  reflexivity.
Defined.

(** X3, at [[1,2,3,4]] with nothing in the registry. *)
Lemma predict_dummy_request_witness :
  exists r preds p',
    predict empty_registry (sequences_body one_row) (started empty_registry)
    = (Ok r, p')
    /\ status r = 200
    /\ field "predictions" r = Some preds
    /\ is_matrix preds 1 24
    /\ field "model_version" r
       = Some (PyStr (model_version (model_loader (started empty_registry)))).
Proof.
  apply (predict_dummy_request empty_registry {["sequences" := one_row]}
           one_row one_row_array 1 4); reflexivity.
Defined.

(** X4, at [[1,2,3,4]] answered by [zeros_model]. *)
Lemma predict_model_success_witness :
  exists preds,
    predictions_of (ObjArray (@NdArray int_floats [1; 24] (repeat 0%Z 24)))
    = Some preds
    /\ predict (registry_with zeros_model) (sequences_body one_row)
               (started (registry_with zeros_model))
       = (Ok (prediction_reply preds
                (model_version
                   (model_loader (started (registry_with zeros_model))))),
          {| model_loader :=
               model_loader (started (registry_with zeros_model));
             rng := rng (started (registry_with zeros_model));
             calls := calls (started (registry_with zeros_model))
                      ++ [CallPredict one_row_array] |}).
Proof.
  apply (predict_model_success (registry_with zeros_model)
           {["sequences" := one_row]} one_row one_row_array zeros_model);
    reflexivity.
Defined.

(** X5, at a model that answers with a 0-d array. *)
Lemma predict_unanswerable_witness :
  exists r p',
    predict (registry_with scalar_model) (sequences_body one_row)
            (started (registry_with scalar_model))
    = (Ok r, p')
    /\ status r = 500
    /\ error_type r = Some (PyStr "TypeError").
Proof.
  apply (predict_unanswerable (registry_with scalar_model)
           {["sequences" := one_row]} one_row one_row_array scalar_model
           (ObjArray (@NdArray int_floats [] [0%Z])));
    reflexivity.
Defined.

(** X6, at the bodies [[1]] and [["sequences"]]. *)
Lemma predict_array_body_witness :
  (exists r,
      predict empty_registry (Ok (PyList [PyInt 1])) (started empty_registry)
      = (Ok r, started empty_registry)
      /\ status r = 400
      /\ error_type r = Some (PyStr "MissingField"))
  /\ (exists r,
        predict empty_registry (Ok (PyList [PyStr "sequences"]))
                (started empty_registry)
        = (Ok r, started empty_registry)
        /\ status r = 500
        /\ error_type r = Some (PyStr "TypeError")).
Proof.
  split.
  - apply (predict_array_body empty_registry [PyInt 1]). discriminate.
  - apply (predict_array_body empty_registry [PyStr "sequences"]).
    discriminate.
Defined.

(** X7, at the body [5]. *)
Lemma predict_scalar_body_witness :
  exists r,
    predict empty_registry (Ok (PyInt 5)) (started empty_registry)
    = (Ok r, started empty_registry)
    /\ status r = 500
    /\ error_type r = Some (PyStr "TypeError").
Proof.
  apply (predict_scalar_body empty_registry (PyInt 5)); reflexivity.
Defined.

(** X8, at [[1, "abc"]]. *)
Lemma predict_bad_scalar_witness :
  exists r,
    predict empty_registry (sequences_body text_cell_rows)
            (started empty_registry)
    = (Ok r, started empty_registry)
    /\ status r = 400
    /\ error_type r = Some (PyStr "ValueError").
Proof.
  apply (predict_bad_scalar empty_registry {["sequences" := text_cell_rows]}
           text_cell_rows [1; 2] [PyInt 1] (PyStr "abc") []
           (ValueError "could not convert string to float")).
  - reflexivity.
  - reflexivity.
  - unfold NPY_MAXDIMS. simpl. lia.
  - reflexivity.
  - constructor; [|constructor]. eexists. reflexivity.
  - reflexivity.
Defined.

(** X10, at a registry whose latest run has a 32-character identifier. *)
Lemma latest_label_is_prefix_witness :
  exists r rs,
    search_runs (registry_with_run sample_run_id zeros_model) = Ok (r :: rs)
    /\ String.prefix "3f2a9c1e" (run_id r) = true
    /\ String.length "3f2a9c1e" = Nat.min 8 (String.length (run_id r)).
Proof.
  apply (latest_label_is_prefix (registry_with_run sample_run_id zeros_model)
           initial_process
           {| model_loader :=
                {| model := Some zeros_model; model_version := "3f2a9c1e";
                   mlflow_tracking_uri := "http://mlflow:5000" |};
              rng := 0;
              calls := [CallSearchRuns;
                        CallLoadModel (run_uri sample_run_id)] |}).
  reflexivity.
Defined.

(** X11, at a process that has a model when the registry has become
    empty. *)
Lemma load_model_keeps_model_witness :
  exists p',
    load_model empty_registry (started (registry_with zeros_model))
    = (Ok tt, p')
    /\ model_loader p'
       = {| model := model (model_loader (started (registry_with zeros_model)));
            model_version := "dummy";
            mlflow_tracking_uri :=
              mlflow_tracking_uri
                (model_loader (started (registry_with zeros_model))) |}.
Proof.
  apply (load_model_keeps_model empty_registry). reflexivity.
Defined.

(** C7. A request with no body is not answered 400 "MissingData": Flask's
    [get_json] raises before the data check, and [predict] answers 500 with
    error_type "UnsupportedMediaType" (no JSON Content-Type) or "BadRequest"
    (JSON Content-Type, empty body). *)
Lemma absent_body_answered_500 :
  decoded absent_request = None
  /\ decoded empty_json_request = None
  /\ answer (predict empty_registry (get_json absent_request)
                     (started empty_registry))
     = Some (500, Some (PyStr "UnsupportedMediaType"))
  /\ answer (predict empty_registry (get_json empty_json_request)
                     (started empty_registry))
     = Some (500, Some (PyStr "BadRequest")).
Proof. repeat split; vm_compute; reflexivity. Qed.

(** C10: the empty mapping [{}] and an absent body are not answered alike;
    the first gets 400 "MissingData", the second 500. *)
Lemma absent_body_unlike_empty_mapping :
  answer (predict empty_registry (get_json (json_request (PyDict ∅)))
                  (started empty_registry))
  = Some (400, Some (PyStr "MissingData"))
  /\ answer (predict empty_registry (get_json absent_request)
                     (started empty_registry))
     = Some (500, Some (PyStr "UnsupportedMediaType"))
  /\ predict empty_registry (get_json (json_request (PyDict ∅)))
             (started empty_registry)
     <> predict empty_registry (get_json absent_request)
                (started empty_registry).
Proof.
  assert (E1 : answer (predict empty_registry
                               (get_json (json_request (PyDict ∅)))
                               (started empty_registry))
               = Some (400, Some (PyStr "MissingData")))
    by (vm_compute; reflexivity).
  assert (E2 : answer (predict empty_registry (get_json absent_request)
                               (started empty_registry))
               = Some (500, Some (PyStr "UnsupportedMediaType")))
    by (vm_compute; reflexivity).
  split; [exact E1|]. split; [exact E2|].
  intros H. rewrite H, E2 in E1. discriminate.
Qed.


(** A loaded model may even carry the label "dummy": the prefix of a run
    identifier that happens to read so. *)
Example loaded_model_labelled_dummy :
  model (model_loader (started (registry_with_run "dummy" zeros_model)))
  = Some zeros_model
  /\ model_version (model_loader (started (registry_with_run "dummy" zeros_model)))
     = "dummy".
Proof. split; reflexivity. Qed.


End MoreRuns.
